(** * Verification of the chat route (app/api/chat/route.ts)

    A shallow embedding of the conversational RAG handler: the query
    resolver [lastUserFromHistory], the history normalizer
    [normalizeHistory], the row normalisation of [searchSupabase], the
    prompt assembler [buildMessagesWithHistory] and the request handler
    [POST], followed by the properties the specification states about
    them.

    JavaScript strings are sequences of UTF-16 code units, numbers are
    IEEE-754 binary64 values, arrays are lists, and the three remote
    services (embeddings, similarity search, chat completion) are
    parameters of the handler whose calls are recorded in a log. *)

From Stdlib Require Import String Ascii DecimalString.
From Stdlib Require Import SpecFloat.
From stdpp Require Import base decidable option numbers list.

Set Default Proof Using "Type".

(** ** JavaScript strings *)

Module JsString.
Local Open Scope N_scope.

(** A string is its sequence of UTF-16 code units. *)
Definition jsstring := list N.

Definition bytes_of_string (s : string) : list N :=
  List.map N_of_ascii (list_ascii_of_string s).

(** Source literals are written in UTF-8 in this file; [utf16] decodes
    them into the code units the JavaScript engine holds. *)
Fixpoint utf16 (bs : list N) : jsstring :=
  match bs with
  | [] => []
  | b0 :: t0 =>
    if b0 <? 128 then b0 :: utf16 t0
    else if b0 <? 224 then
      match t0 with
      | b1 :: t1 => ((b0 - 192) * 64 + (b1 - 128)) :: utf16 t1
      | [] => []
      end
    else if b0 <? 240 then
      match t0 with
      | b1 :: b2 :: t2 =>
        ((b0 - 224) * 4096 + (b1 - 128) * 64 + (b2 - 128)) :: utf16 t2
      | _ => []
      end
    else
      match t0 with
      | b1 :: b2 :: b3 :: t3 =>
        let cp := (b0 - 240) * 262144 + (b1 - 128) * 4096
                  + (b2 - 128) * 64 + (b3 - 128) in
        let v := cp - 65536 in
        (55296 + v / 1024) :: (56320 + v mod 1024) :: utf16 t3
      | _ => []
      end
  end.

Definition js (s : string) : jsstring := utf16 (bytes_of_string s).

(** ECMAScript WhiteSpace and LineTerminator code points, the ones
    [String.prototype.trim] strips. *)
Definition isWhiteSpace (c : N) : bool :=
  (c =? 9) || (c =? 10) || (c =? 11) || (c =? 12) || (c =? 13)
  || (c =? 32) || (c =? 160) || (c =? 5760)
  || ((8192 <=? c) && (c <=? 8202))
  || (c =? 8232) || (c =? 8233) || (c =? 8239) || (c =? 8287)
  || (c =? 12288) || (c =? 65279).

Fixpoint trimStart (s : jsstring) : jsstring :=
  match s with
  | [] => []
  | c :: t => if isWhiteSpace c then trimStart t else s
  end.

Definition trimEnd (s : jsstring) : jsstring :=
  reverse (trimStart (reverse s)).

(** [s.trim()] *)
Definition trim (s : jsstring) : jsstring := trimEnd (trimStart s).

(** [s.slice(0, n)] for a non-negative integer [n]. *)
Definition slice0 (n : nat) (s : jsstring) : jsstring := take n s.

(** [String(n)] for an array index or length. *)
Definition ofNat (n : nat) : jsstring :=
  js (NilZero.string_of_uint (Nat.to_uint n)).

(** [parts.join(sep)] *)
Fixpoint join (sep : jsstring) (parts : list jsstring) : jsstring :=
  match parts with
  | [] => []
  | [p] => p
  | p :: rest => p ++ sep ++ join sep rest
  end.

(** A string is truthy when it is not empty. *)
Definition truthy (s : jsstring) : bool :=
  match s with [] => false | _ => true end.

End JsString.
Export JsString.

(** ** JavaScript numbers *)

Module JsNumber.

(** A number is an IEEE-754 binary64 value. *)
Definition number := spec_float.

Definition prec : Z := 53.
Definition emax : Z := 1024.

(** The number denoted by an integer literal. *)
Definition ofZ (z : Z) : number := binary_normalize prec emax z 0 false.

Definition NaN : number := S754_nan.
Definition posInf : number := S754_infinity false.
Definition negInf : number := S754_infinity true.

Definition isNaN (x : number) : bool :=
  match x with S754_nan => true | _ => false end.
Definition isPosZero (x : number) : bool :=
  match x with S754_zero false => true | _ => false end.
Definition isNegZero (x : number) : bool :=
  match x with S754_zero true => true | _ => false end.

(** [x < y], [x > y] and [x <= y] *)
Definition Number_lt (x y : number) : bool := SFltb x y.
Definition Number_gt (x y : number) : bool := SFltb y x.
Definition Number_le (x y : number) : bool := SFleb x y.

(** [Math.min(...args)]: NaN if any argument is NaN, otherwise the
    lowest argument, with -0 below +0. *)
Fixpoint min_from (lowest : number) (args : list number) : number :=
  match args with
  | [] => lowest
  | n :: rest =>
    if isNaN n then NaN
    else if isNegZero n && isPosZero lowest then min_from n rest
    else if Number_lt n lowest then min_from n rest
    else min_from lowest rest
  end.
Definition Math_min (args : list number) : number := min_from posInf args.

(** [Math.max(...args)] *)
Fixpoint max_from (highest : number) (args : list number) : number :=
  match args with
  | [] => highest
  | n :: rest =>
    if isNaN n then NaN
    else if isPosZero n && isNegZero highest then max_from n rest
    else if Number_gt n highest then max_from n rest
    else max_from highest rest
  end.
Definition Math_max (args : list number) : number := max_from negInf args.

End JsNumber.
Export JsNumber.

(** ** Nullish coalescing and array slicing *)

(** [a ?? b] where [b] cannot be nullish. *)
Definition coalesce {A} (a : option A) (b : A) : A :=
  match a with Some v => v | None => b end.

(** [a ?? b] where [b] may itself be nullish. *)
Definition coalesceOpt {A} (a b : option A) : option A :=
  match a with Some _ => a | None => b end.

Infix "??" := coalesce (at level 45, left associativity).
Infix "?|" := coalesceOpt (at level 44, left associativity).

(** [a.slice(start)] for an integer [start]: a negative [start] counts
    from the end of the array. *)
Definition slice_from {A} (start : Z) (a : list A) : list A :=
  let len := Z.of_nat (length a) in
  let k := if decide (start < 0)%Z then Z.max (len + start) 0
           else Z.min start len in
  drop (Z.to_nat k) a.

(** ** Data model of the route *)

Module ClientMsg.
(** [type ClientMsg = { role; content }]; [content] is [None] when the
    field is null or missing in the request body. *)
Record t := mk { role : jsstring; content : option jsstring }.
End ClientMsg.

Module ChatBody.
(** [type ChatBody]; a [None] element of [messages] is a null entry. *)
Record t := mk {
  question : option jsstring;
  message : option jsstring;
  top_k : option number;
  messages : option (list (option ClientMsg.t));
}.
End ChatBody.

Module Row.
(** A row returned by the match procedure. The text-like columns hold
    a string or are null/absent, the score columns hold a number or are
    null/absent. *)
Record t := mk {
  content : option jsstring;
  text : option jsstring;
  chunk : option jsstring;
  body : option jsstring;
  page_text : option jsstring;
  document : option jsstring;
  source : option jsstring;
  url : option jsstring;
  source_url : option jsstring;
  page_url : option jsstring;
  doc_url : option jsstring;
  path : option jsstring;
  similarity : option number;
  score : option number;
}.

End Row.

Module Retrieved.
(** [type Retrieved = { text; source; similarity }] *)
Record t := mk { text : jsstring; source : jsstring; similarity : number }.
End Retrieved.

Module Context.
(** The [{ text, source }] objects handed to the prompt assembler. *)
Record t := mk { text : jsstring; source : jsstring }.
End Context.

Module PromptMsg.
(** A role-tagged block of the assembled prompt. *)
Record t := mk { role : jsstring; content : jsstring }.
End PromptMsg.

(** ** Row normalisation of [searchSupabase] *)

(** The callback of [rows.map(...)]. *)
Definition normalizeRow (row : Row.t) : Retrieved.t :=
  let text :=
    trim (Row.content row ?| Row.text row ?| Row.chunk row ?| Row.body row
          ?| Row.page_text row ?| Row.document row ?? js "") in
  let source :=
    trim (Row.source row ?| Row.url row ?| Row.source_url row
          ?| Row.page_url row ?| Row.doc_url row ?| Row.path row ?? js "") in
  let similarity := Row.similarity row ?| Row.score row ?? ofZ 0 in
  Retrieved.mk text source similarity.

(** The callback of [.filter((r) => r.text.length > 0)]. *)
Definition hasText (r : Retrieved.t) : Prop := (0 < length (Retrieved.text r))%nat.

#[global] Instance hasText_dec r : Decision (hasText r).
Proof. unfold hasText. apply _. Defined.

(** [rows.map(...).filter(...)], the value [searchSupabase] returns. *)
Definition normalizeRows (rows : list Row.t) : list Retrieved.t :=
  filter hasText (normalizeRow <$> rows).

(** ** Query resolver *)

Definition isUser (m : option ClientMsg.t) : Prop :=
  match m with
  | Some m => ClientMsg.role m = js "user"
  | None => False
  end.

#[global] Instance isUser_dec m : Decision (isUser m).
Proof. destruct m; simpl; apply _. Defined.

(** [[...messages].reverse().find((m) => m?.role === "user")] *)
Definition findLastUser (messages : list (option ClientMsg.t))
  : option ClientMsg.t :=
  match list_find isUser (reverse messages) with
  | Some (_, m) => m
  | None => None
  end.

(** [String(body.question ?? body.message ?? "").trim()] *)
Definition legacyQuery (body : ChatBody.t) : jsstring :=
  trim (ChatBody.question body ?| ChatBody.message body ?? js "").

Definition lastUserFromHistory (body : ChatBody.t) : jsstring :=
  match ChatBody.messages body with
  | Some ((_ :: _) as messages) =>
    let lastUser := findLastUser messages in
    let q := trim ((lastUser ≫= ClientMsg.content) ?? js "") in
    if truthy q then q else legacyQuery body
  | _ => legacyQuery body
  end.

(** ** History normalizer *)

(** [m && (m.role === "user" || m.role === "assistant")] *)
Definition isTurn (m : option ClientMsg.t) : Prop :=
  match m with
  | Some m => ClientMsg.role m = js "user" ∨ ClientMsg.role m = js "assistant"
  | None => False
  end.

#[global] Instance isTurn_dec m : Decision (isTurn m).
Proof. destruct m; simpl; apply _. Defined.

(** The length every turn is cut to. *)
Definition maxContent : nat := 4000.

(** [{ role: m.role, content: String(m.content ?? "").slice(0, 4000) }];
    the callback only runs on entries that passed [isTurn]. *)
Definition cutTurn (m : option ClientMsg.t) : PromptMsg.t :=
  match m with
  | Some m =>
    PromptMsg.mk (ClientMsg.role m)
                 (slice0 maxContent (ClientMsg.content m ?? js ""))
  | None => PromptMsg.mk (js "") (js "")
  end.

(** [m.content.trim().length > 0] *)
Definition nonBlank (m : PromptMsg.t) : Prop :=
  (0 < length (trim (PromptMsg.content m)))%nat.

#[global] Instance nonBlank_dec m : Decision (nonBlank m).
Proof. unfold nonBlank. apply _. Defined.

(** The local [cleaned] of [normalizeHistory]. *)
Definition cleaned (body : ChatBody.t) : list PromptMsg.t :=
  let raw := ChatBody.messages body ?? [] in
  filter nonBlank (cutTurn <$> filter isTurn raw).

Definition normalizeHistory (body : ChatBody.t) (maxTurns : Z)
  : list PromptMsg.t :=
  slice_from (- maxTurns) (cleaned body).

(** ** Prompt assembler *)

Definition system : jsstring :=
  js "あなたは与えられたコンテキストに基づいて回答するアシスタントです。
- 根拠がコンテキストに無い内容は推測しないで「不明」「資料内では特定できません」と答えてください。
- ユーザーの「この中で」「それ」「さっきの」などは会話履歴を参照して解釈してください。
- ただし“事実の根拠”は必ずコンテキストに置いてください（履歴は意図解釈用）。
- 回答は日本語で、できるだけ具体的に。会社名がコンテキスト内に明記されていれば列挙してください。".

Definition LF : jsstring := [10%N].

(** The callback of [contexts.map((c, i) => ...)]:
    [`[#${i + 1}] source: ${c.source}\n${c.text}`.trim()] *)
Definition renderContext (i : nat) (c : Context.t) : jsstring :=
  trim (js "[#" ++ ofNat (i + 1) ++ js "] source: " ++ Context.source c
        ++ LF ++ Context.text c).

(** The local [ctx]: the entries joined by a blank line. *)
Definition digest (contexts : list Context.t) : jsstring :=
  join (LF ++ LF) (imap renderContext contexts).

Definition noContext : jsstring := js "(コンテキストなし)".

(** The local [finalUser]. *)
Definition finalUser (question : jsstring) (contexts : list Context.t)
  : jsstring :=
  let ctx := digest contexts in
  js "# コンテキスト" ++ LF
  ++ (if truthy ctx then ctx else noContext) ++ LF
  ++ LF
  ++ js "# 今回の質問" ++ LF
  ++ question ++ LF
  ++ LF
  ++ js "# 回答（日本語）" ++ LF.

Definition buildMessagesWithHistory (question : jsstring)
    (history : list PromptMsg.t) (contexts : list Context.t)
  : list PromptMsg.t :=
  [PromptMsg.mk (js "system") system]
  ++ ((λ m, PromptMsg.mk (PromptMsg.role m) (PromptMsg.content m)) <$> history)
  ++ [PromptMsg.mk (js "user") (finalUser question contexts)].

(** ** The remote services and the effect monad *)

Module Error.
(** A thrown [Error] object. *)
Record t := mk { name : jsstring; message : jsstring }.
End Error.

Module RpcArgs.
(** The [args] object of the match procedure; [match_threshold] is
    only set when the configured threshold is positive. *)
Record t := mk {
  query_embedding : list number;
  match_count : number;
  match_threshold : option number;
}.
End RpcArgs.

Module RpcResult.
(** [{ data, error }] as [supabase.rpc] resolves it; [error] carries
    the backend's message. *)
Record t := mk { data : option (list Row.t); error : option jsstring }.
End RpcResult.

Module ChatCompletion.
(** [chat.choices[i]?.message?.content]: a choice may lack its message
    and a message its content. *)
Record message := mkMessage { content : option jsstring }.
Record choice := mkChoice { message_of : option message }.
Record t := mk { choices : list choice }.
End ChatCompletion.

(** A call made to a remote service. *)
Inductive Call :=
  | EmbeddingsCreate (model input : jsstring)
  | SupabaseRpc (fn : jsstring) (args : RpcArgs.t)
  | ChatCompletionsCreate (model : jsstring) (messages : list PromptMsg.t)
                          (temperature : number).

(** The module-level configuration and the behaviour of the services:
    each service either throws or resolves. *)
Record Env := {
  RPC_NAME : jsstring;
  MATCH_THRESHOLD : number;
  (** [env("OPENAI_CHAT_MODEL")] *)
  OPENAI_CHAT_MODEL : option jsstring;
  (** [openai.embeddings.create({ model, input })], resolved to the
      [embedding] of each entry of [res.data] *)
  embeddings_create : jsstring → jsstring → Error.t + list (list number);
  supabase_rpc : jsstring → RpcArgs.t → Error.t + RpcResult.t;
  chat_completions_create :
    jsstring → list PromptMsg.t → number → Error.t + ChatCompletion.t;
}.

(** Computations that log their service calls and may throw. *)
Definition M (A : Type) : Type := list Call → list Call * (Error.t + A).

#[global] Instance M_ret : MRet M := λ A a log, (log, inr a).

#[global] Instance M_bind : MBind M := λ A B f m log,
  match m log with
  | (log', inr a) => f a log'
  | (log', inl e) => (log', inl e)
  end.

Definition throw {A} (e : Error.t) : M A := λ log, (log, inl e).

(** [await service(...)]: the call is logged, then it resolves or throws. *)
Definition perform {A} (c : Call) (outcome : Error.t + A) : M A :=
  λ log, (log ++ [c], outcome).

(** [try { body } catch (e) { handler(e) }] *)
Definition tryCatch {A} (body : M A) (handler : Error.t → M A) : M A :=
  λ log,
  match body log with
  | (log', inr a) => (log', inr a)
  | (log', inl e) => handler e log'
  end.

(** ** The response *)

Module Reference.
Record t := mk { source : jsstring; score : number }.
End Reference.

Module Meta.
Record t := mk {
  top_k : number;
  rpc : jsstring;
  hits : nat;
  threshold : number;
  used_history : nat;
}.
End Meta.

Inductive Json :=
  | AnswerJson (answer : jsstring) (references : list Reference.t)
               (meta : Meta.t)
  | ErrorJson (error : jsstring).

Module Response.
(** [NextResponse.json(json, { status })] *)
Record t := mk { status : N; json : Json }.
End Response.

(** The literal [0.2]. *)
Definition temperature : number := S754_finite false 7205759403792794 (-55).

(** ** The handler *)

Section Handler.
Context (env : Env).

Definition embedQuery (text : jsstring) : M (list number) :=
  let model := js "text-embedding-3-small" in
  data ← perform (EmbeddingsCreate model text)
                 (embeddings_create env model text);
  match data with
  | embedding :: _ => mret embedding
  | [] =>
    throw (Error.mk (js "TypeError")
      (js "Cannot read properties of undefined (reading 'embedding')"))
  end.

Definition searchSupabase (query : jsstring) (topK : number)
  : M (list Retrieved.t) :=
  qEmb ← embedQuery query;
  let args :=
    RpcArgs.mk qEmb topK
      (if Number_gt (MATCH_THRESHOLD env) (ofZ 0)
       then Some (MATCH_THRESHOLD env) else None) in
  res ← perform (SupabaseRpc (RPC_NAME env) args)
                (supabase_rpc env (RPC_NAME env) args);
  match RpcResult.error res with
  | Some message =>
    throw (Error.mk (js "Error")
      (js "supabase.rpc(" ++ RPC_NAME env ++ js ") failed: " ++ message))
  | None =>
    let rows := RpcResult.data res ?? [] in
    mret (normalizeRows rows)
  end.

(** [Math.max(1, Math.min(Number(body.top_k ?? 20), 60))] *)
Definition effectiveTopK (body : ChatBody.t) : number :=
  Math_max [ofZ 1; Math_min [ChatBody.top_k body ?? ofZ 20; ofZ 60]].

(** [chat.choices[0]?.message?.content ?? ""] *)
Definition answerOf (chat : ChatCompletion.t) : jsstring :=
  ((head (ChatCompletion.choices chat) ≫= ChatCompletion.message_of)
     ≫= ChatCompletion.content) ?? js "".

Definition referencesOf (retrieved : list Retrieved.t) : list Reference.t :=
  (λ r, Reference.mk (Retrieved.source r) (Retrieved.similarity r))
    <$> retrieved.

Definition contextsOf (retrieved : list Retrieved.t) : list Context.t :=
  (λ r, Context.mk (Retrieved.text r) (Retrieved.source r)) <$> retrieved.

Definition emptyQueryResponse : Response.t :=
  Response.mk 400%N (ErrorJson (js "question (or message) is required")).

(** The body of the [try] block, after [req.json()] has produced
    [body]. *)
Definition handle (body : ChatBody.t) : M Response.t :=
  let q := lastUserFromHistory body in
  if negb (truthy q) then mret emptyQueryResponse
  else
    let topK := effectiveTopK body in
    retrieved ← searchSupabase q topK;
    let history := normalizeHistory body 60 in
    let messages :=
      buildMessagesWithHistory q history (contextsOf retrieved) in
    let model := OPENAI_CHAT_MODEL env ?? js "gpt-4.1-mini" in
    chat ← perform (ChatCompletionsCreate model messages temperature)
                   (chat_completions_create env model messages temperature);
    let answer := answerOf chat in
    let references := referencesOf retrieved in
    mret (Response.mk 200%N
            (AnswerJson answer references
               (Meta.mk topK (RPC_NAME env) (length retrieved)
                        (MATCH_THRESHOLD env) (length history)))).

Definition POST (body : ChatBody.t) : M Response.t :=
  tryCatch (handle body)
    (λ e, mret (Response.mk 500%N
                  (ErrorJson (Error.name e ++ js ": " ++ Error.message e)))).

End Handler.

(** * Vocabulary of the properties *)

(** ** Query resolver *)

(** [m] is the most recent turn of [messages] whose role is "user". *)
Definition mostRecentUser (messages : list (option ClientMsg.t))
    (m : ClientMsg.t) : Prop :=
  ∃ older newer,
    messages = older ++ Some m :: newer
    ∧ ClientMsg.role m = js "user"
    ∧ Forall (λ x, ¬ isUser x) newer.

(** The content of a turn as text, trimmed. *)
Definition trimmedContent (m : ClientMsg.t) : jsstring :=
  trim (ClientMsg.content m ?? js "").

(** The trimmed question field, or the trimmed message field when the
    question is absent, or the empty string when both are. *)
Definition legacyField (body : ChatBody.t) : jsstring :=
  match ChatBody.question body, ChatBody.message body with
  | Some q, _ => trim q
  | None, Some m => trim m
  | None, None => js ""
  end.

(** ** Runs of the handler *)

Section RunModel.
Context (env : Env).

Definition embeddingModel : jsstring := js "text-embedding-3-small".
Definition chatModel : jsstring := OPENAI_CHAT_MODEL env ?? js "gpt-4.1-mini".

Definition embeddingCall (body : ChatBody.t) : Call :=
  EmbeddingsCreate embeddingModel (lastUserFromHistory body).

Definition retrievalArgs (body : ChatBody.t) (qEmb : list number) : RpcArgs.t :=
  RpcArgs.mk qEmb (effectiveTopK body)
    (if Number_gt (MATCH_THRESHOLD env) (ofZ 0)
     then Some (MATCH_THRESHOLD env) else None).

Definition retrievalCall (body : ChatBody.t) (qEmb : list number) : Call :=
  SupabaseRpc (RPC_NAME env) (retrievalArgs body qEmb).

(** The prompt sent for the evidence [retrieved]. *)
Definition promptFor (body : ChatBody.t) (retrieved : list Retrieved.t)
  : list PromptMsg.t :=
  buildMessagesWithHistory (lastUserFromHistory body)
    (normalizeHistory body 60) (contextsOf retrieved).

Definition completionCall (body : ChatBody.t) (retrieved : list Retrieved.t)
  : Call :=
  ChatCompletionsCreate chatModel (promptFor body retrieved) temperature.

Definition serverError (e : Error.t) : Response.t :=
  Response.mk 500%N (ErrorJson (Error.name e ++ js ": " ++ Error.message e)).

Definition okResponse (body : ChatBody.t) (retrieved : list Retrieved.t)
    (chat : ChatCompletion.t) : Response.t :=
  Response.mk 200%N
    (AnswerJson (answerOf chat) (referencesOf retrieved)
       (Meta.mk (effectiveTopK body) (RPC_NAME env) (length retrieved)
                (MATCH_THRESHOLD env) (length (normalizeHistory body 60)))).

(** The seven ways a request can go: the calls made, in order, and the
    response returned. *)
Inductive Run (body : ChatBody.t) : list Call → Response.t → Prop :=
  | RunEmptyQuery :
      lastUserFromHistory body = js "" →
      Run body [] emptyQueryResponse
  | RunEmbeddingThrows e :
      lastUserFromHistory body ≠ js "" →
      embeddings_create env embeddingModel (lastUserFromHistory body) = inl e →
      Run body [embeddingCall body] (serverError e)
  | RunEmbeddingEmpty :
      lastUserFromHistory body ≠ js "" →
      embeddings_create env embeddingModel (lastUserFromHistory body) = inr [] →
      Run body [embeddingCall body]
        (serverError (Error.mk (js "TypeError")
           (js "Cannot read properties of undefined (reading 'embedding')")))
  | RunRetrievalThrows qEmb rest e :
      lastUserFromHistory body ≠ js "" →
      embeddings_create env embeddingModel (lastUserFromHistory body)
        = inr (qEmb :: rest) →
      supabase_rpc env (RPC_NAME env) (retrievalArgs body qEmb) = inl e →
      Run body [embeddingCall body; retrievalCall body qEmb] (serverError e)
  | RunRetrievalError qEmb rest res message :
      lastUserFromHistory body ≠ js "" →
      embeddings_create env embeddingModel (lastUserFromHistory body)
        = inr (qEmb :: rest) →
      supabase_rpc env (RPC_NAME env) (retrievalArgs body qEmb) = inr res →
      RpcResult.error res = Some message →
      Run body [embeddingCall body; retrievalCall body qEmb]
        (serverError (Error.mk (js "Error")
           (js "supabase.rpc(" ++ RPC_NAME env ++ js ") failed: " ++ message)))
  | RunCompletionThrows qEmb rest res e :
      lastUserFromHistory body ≠ js "" →
      embeddings_create env embeddingModel (lastUserFromHistory body)
        = inr (qEmb :: rest) →
      supabase_rpc env (RPC_NAME env) (retrievalArgs body qEmb) = inr res →
      RpcResult.error res = None →
      let retrieved := normalizeRows (RpcResult.data res ?? []) in
      chat_completions_create env chatModel (promptFor body retrieved)
        temperature = inl e →
      Run body [embeddingCall body; retrievalCall body qEmb;
                completionCall body retrieved] (serverError e)
  | RunOk qEmb rest res chat :
      lastUserFromHistory body ≠ js "" →
      embeddings_create env embeddingModel (lastUserFromHistory body)
        = inr (qEmb :: rest) →
      supabase_rpc env (RPC_NAME env) (retrievalArgs body qEmb) = inr res →
      RpcResult.error res = None →
      let retrieved := normalizeRows (RpcResult.data res ?? []) in
      chat_completions_create env chatModel (promptFor body retrieved)
        temperature = inr chat →
      Run body [embeddingCall body; retrievalCall body qEmb;
                completionCall body retrieved]
        (okResponse body retrieved chat).

End RunModel.

(** ** Result count *)

(** The clamping expression of [effectiveTopK] on a given number. *)
Definition clamp (x : number) : number :=
  Math_max [ofZ 1; Math_min [x; ofZ 60]].

(** ** Row normalisation *)

(** The candidate columns of a row, in the order the code tries them. *)
Definition textColumns (row : Row.t) : list (option jsstring) :=
  [Row.content row; Row.text row; Row.chunk row; Row.body row;
   Row.page_text row; Row.document row].

Definition sourceColumns (row : Row.t) : list (option jsstring) :=
  [Row.source row; Row.url row; Row.source_url row; Row.page_url row;
   Row.doc_url row; Row.path row].

Definition scoreColumns (row : Row.t) : list (option number) :=
  [Row.similarity row; Row.score row].

(** The first candidate that is present, whatever it holds. *)
Fixpoint firstPresent {A} (candidates : list (option A)) : option A :=
  match candidates with
  | [] => None
  | Some v :: _ => Some v
  | None :: rest => firstPresent rest
  end.

(** The first candidate that is present and not the empty string. *)
Fixpoint firstNonEmpty (candidates : list (option jsstring))
  : option jsstring :=
  match candidates with
  | [] => None
  | Some (c :: s) :: _ => Some (c :: s)
  | _ :: rest => firstNonEmpty rest
  end.

(** The rule "first non-empty value wins" for one row. *)
Definition firstNonEmptyWins (row : Row.t) : Prop :=
  Retrieved.text (normalizeRow row)
    = trim (firstNonEmpty (textColumns row) ?? js "")
  ∧ Retrieved.source (normalizeRow row)
    = trim (firstNonEmpty (sourceColumns row) ?? js "").


(** ** Prompt assembly *)






(** ** Answer and references *)


(** ** Concrete requests *)

(** A row whose [content] is present but empty and whose [text] holds a
    passage. *)
Definition rowEmptyContent : Row.t :=
  Row.mk (Some (js "")) (Some (js "T")) None None None None
         (Some (js "doc1")) None None None None None None None.




(** The score [0.9]. *)
Definition score09 : number := SFdiv prec emax (ofZ 9) (ofZ 10).

Definition rowDoc1 : Row.t :=
  Row.mk (Some (js "X is a company.")) None None None None None
         (Some (js "doc1")) None None None None None (Some score09) None.

(** A row with only [page_text], no source and no score. *)
Definition rowPageText : Row.t :=
  Row.mk None None None None (Some (js " From the page ")) None
         None None None None None None None None.

(** A row with both [content] and [text]. *)
Definition rowBoth : Row.t :=
  Row.mk (Some (js " A ")) (Some (js "B")) None None None None
         None (Some (js "u")) None None None None None (Some (ofZ 1)).

Definition stubChat : ChatCompletion.t :=
  ChatCompletion.mk
    [ChatCompletion.mkChoice
       (Some (ChatCompletion.mkMessage (Some (js "X is a company."))))].

(** Services that always resolve: one embedding, the rows
    [rowDoc1; rowPageText], one completion. *)
Definition stubEnv : Env := {|
  RPC_NAME := js "match_documents";
  MATCH_THRESHOLD := ofZ 0;
  OPENAI_CHAT_MODEL := None;
  embeddings_create := λ _ _, inr [[ofZ 1; ofZ 0]];
  supabase_rpc := λ _ _,
    inr (RpcResult.mk (Some [rowDoc1; rowPageText]) None);
  chat_completions_create := λ _ _ _, inr stubChat;
|}.

Definition emptyBody : ChatBody.t := ChatBody.mk None None None None.

Definition bodyWhatIsX : ChatBody.t :=
  ChatBody.mk None None (Some (ofZ 8))
    (Some [Some (ClientMsg.mk (js "user") (Some (js "What is X?")))]).

Definition lastTurn : ClientMsg.t :=
  ClientMsg.mk (js "user") (Some (js "  And Y? ")).

Definition bodyFollowUp : ChatBody.t :=
  ChatBody.mk (Some (js "ignored")) None (Some (ofZ 100))
    (Some [Some (ClientMsg.mk (js "user") (Some (js "What is X?")));
           Some (ClientMsg.mk (js "assistant") (Some (js "X is a company.")));
           None;
           Some lastTurn;
           Some (ClientMsg.mk (js "assistant") None)]).

Definition blankTurn : ClientMsg.t :=
  ClientMsg.mk (js "user") (Some (js "   ")).

Definition bodyBlankTurn : ChatBody.t :=
  ChatBody.mk None (Some (js " legacy ")) None (Some [Some blankTurn]).

Definition stubRetrieved : list Retrieved.t :=
  [Retrieved.mk (js "X is a company.") (js "doc1") score09;
   Retrieved.mk (js "From the page") (js "") (ofZ 0)].


(** * Properties *)

(** ** The model on concrete inputs *)

Example js_ascii : js "user" = [117; 115; 101; 114]%N.
Proof. reflexivity. Qed.

Example js_kana : js "あ　" = [12354; 12288]%N.
Proof. reflexivity. Qed.

Example trim_example : trim (js "  あ a　 ") = js "あ a".
Proof. reflexivity. Qed.

Example ofNat_example : ofNat 12 = js "12".
Proof. reflexivity. Qed.

Example ofZ_60 : ofZ 60 = S754_finite false 8444249301319680 (-47).
Proof. reflexivity. Qed.

Example Math_min_example : Math_min [ofZ 8; ofZ 60] = ofZ 8.
Proof. reflexivity. Qed.

Example Math_max_example : Math_max [ofZ 1; ofZ (-3)] = ofZ 1.
Proof. reflexivity. Qed.

Example slice_from_neg : slice_from (-2) [1; 2; 3] = [2; 3].
Proof. reflexivity. Qed.

Example digest_example :
  digest [Context.mk (js "A") (js "s1"); Context.mk (js "B") (js "")]
  = js "[#1] source: s1" ++ LF ++ js "A" ++ LF ++ LF
    ++ js "[#2] source: " ++ LF ++ js "B".
Proof. reflexivity. Qed.

Example temperature_is_a_fifth : temperature = SFdiv prec emax (ofZ 2) (ofZ 10).
Proof. reflexivity. Qed.

Example lastUserFromHistory_follow_up :
  lastUserFromHistory bodyFollowUp = js "And Y?".
Proof. by vm_compute. Qed.

Example lastUserFromHistory_blank_turn :
  lastUserFromHistory bodyBlankTurn = js "legacy".
Proof. by vm_compute. Qed.

(** An empty question is not nullish: the message is not consulted. *)
Example lastUserFromHistory_empty_question :
  lastUserFromHistory (ChatBody.mk (Some (js "")) (Some (js "hi")) None None)
  = js "".
Proof. by vm_compute. Qed.

Example normalizeHistory_follow_up :
  normalizeHistory bodyFollowUp 2
  = [PromptMsg.mk (js "assistant") (js "X is a company.");
     PromptMsg.mk (js "user") (js "  And Y? ")].
Proof. by vm_compute. Qed.

Example normalizeRows_stub :
  normalizeRows [rowDoc1; rowEmptyContent; rowPageText] = stubRetrieved.
Proof. by vm_compute. Qed.

Example effectiveTopK_examples :
  effectiveTopK emptyBody = ofZ 20
  ∧ effectiveTopK bodyWhatIsX = ofZ 8
  ∧ effectiveTopK bodyFollowUp = ofZ 60.
Proof. by vm_compute. Qed.

(** The end-to-end scenario: three calls, in order, and a 200 response
    with one reference per record. *)
Example POST_what_is_X :
  POST stubEnv bodyWhatIsX []
  = ([embeddingCall bodyWhatIsX;
      retrievalCall stubEnv bodyWhatIsX [ofZ 1; ofZ 0];
      completionCall stubEnv bodyWhatIsX stubRetrieved],
     inr (Response.mk 200%N
            (AnswerJson (js "X is a company.")
               [Reference.mk (js "doc1") score09;
                Reference.mk (js "") (ofZ 0)]
               (Meta.mk (ofZ 8) (js "match_documents") 2 (ofZ 0) 1)))).
Proof. by vm_compute. Qed.

(** No evidence: the placeholder is in the prompt. *)
Example finalUser_no_context :
  finalUser (js "q") []
  = js "# コンテキスト
(コンテキストなし)

# 今回の質問
q

# 回答（日本語）
".
Proof. by vm_compute. Qed.

(** ** Trimming *)

Section Trim.
Implicit Types (s t : jsstring) (c : N).


Lemma trimStart_blank s :
  Forall (λ c, isWhiteSpace c = true) s → trimStart s = [].
Proof. induction 1 as [|c s Hc _ IH]; simpl; [done|]. by rewrite Hc. Qed.


Lemma trimStart_suffix s : ∃ p,
  s = p ++ trimStart s ∧ Forall (λ c, isWhiteSpace c = true) p.
Proof.
  induction s as [|a s [p [Hp Hws]]]; simpl; [by exists []|].
  destruct (isWhiteSpace a) eqn:Ha.
  - exists (a :: p). split; [by rewrite <- app_comm_cons, <- Hp|]. by constructor.
  - by exists [].
Qed.



Lemma trim_blank s : Forall (λ c, isWhiteSpace c = true) s → trim s = [].
Proof. intros Hs. unfold trim. by rewrite trimStart_blank. Qed.


Lemma truthy_true s : truthy s = true ↔ s ≠ [].
Proof. by destruct s. Qed.

Lemma truthy_false s : truthy s = false ↔ s = [].
Proof. by destruct s. Qed.
End Trim.

(** ** Query resolver *)

Lemma legacyQuery_legacyField body : legacyQuery body = legacyField body.
Proof.
  unfold legacyQuery, legacyField.
  by destruct (ChatBody.question body), (ChatBody.message body).
Qed.

Lemma findLastUser_mostRecent messages m :
  mostRecentUser messages m → findLastUser messages = Some m.
Proof.
  intros (older & newer & -> & Hrole & Hnewer). unfold findLastUser.
  rewrite reverse_app, reverse_cons.
  assert (Hnone : list_find isUser (reverse newer) = None).
  { apply list_find_None. by apply Forall_reverse. }
  erewrite list_find_app_l; [done|].
  rewrite (list_find_app_r _ _ _ Hnone). simpl.
  rewrite decide_True by exact Hrole. done.
Qed.

Lemma findLastUser_none messages :
  Forall (λ x, ¬ isUser x) messages → findLastUser messages = None.
Proof.
  intros Hall. unfold findLastUser.
  assert (Hnone : list_find isUser (reverse messages) = None).
  { apply list_find_None. by apply Forall_reverse. }
  by rewrite Hnone.
Qed.

(** The guard on the array length changes nothing: an empty array has
    no user turn. *)
Lemma lastUserFromHistory_messages body messages :
  ChatBody.messages body = Some messages →
  lastUserFromHistory body =
    let q := trim ((findLastUser messages ≫= ClientMsg.content) ?? js "") in
    if truthy q then q else legacyQuery body.
Proof.
  intros Hms. unfold lastUserFromHistory. rewrite Hms.
  by destruct messages.
Qed.

(** C1. When the messages array has a user turn and the most recent one
    has content that is not empty once trimmed, the query resolver
    returns that content trimmed. When the array is absent or empty, has
    no user turn, or its most recent user turn is empty or blank, it
    returns the trimmed question field, falling back to the trimmed
    message field. *)
Theorem lastUserFromHistory_spec (body : ChatBody.t) :
  (∀ messages m,
      ChatBody.messages body = Some messages →
      mostRecentUser messages m →
      trimmedContent m ≠ js "" →
      lastUserFromHistory body = trimmedContent m)
  ∧ (ChatBody.messages body = None
     ∨ ChatBody.messages body = Some []
     ∨ (∃ messages, ChatBody.messages body = Some messages
                    ∧ Forall (λ x, ¬ isUser x) messages)
     ∨ (∃ messages m, ChatBody.messages body = Some messages
                      ∧ mostRecentUser messages m
                      ∧ trimmedContent m = js "") →
     lastUserFromHistory body = legacyField body).
Proof.
  split.
  - intros messages m Hms Hlast Hne.
    rewrite (lastUserFromHistory_messages _ _ Hms).
    rewrite (findLastUser_mostRecent _ _ Hlast). simpl.
    fold (trimmedContent m).
    apply truthy_true in Hne. by rewrite Hne.
  - rewrite <- legacyQuery_legacyField.
    intros [Hms|[Hms|[(messages & Hms & Hnone)|(messages & m & Hms & Hlast & He)]]].
    + unfold lastUserFromHistory. by rewrite Hms.
    + unfold lastUserFromHistory. by rewrite Hms.
    + rewrite (lastUserFromHistory_messages _ _ Hms).
      by rewrite (findLastUser_none _ Hnone).
    + rewrite (lastUserFromHistory_messages _ _ Hms).
      rewrite (findLastUser_mostRecent _ _ Hlast). simpl.
      fold (trimmedContent m). by rewrite He.
Qed.

(** ** Runs of the handler *)

(** String literals are compared by name, not by their code units. *)
#[local] Opaque js.

Section Runs.
Context (env : Env).

(** The handler always responds, and what it does is one of the runs
    above; the calls are appended to the log in the order made. *)
Lemma POST_run body log :
  ∃ calls resp,
    POST env body log = (log ++ calls, inr resp) ∧ Run env body calls resp.
Proof.
  unfold POST, tryCatch, handle.
  destruct (truthy (lastUserFromHistory body)) eqn:Hq; simpl.
  2:{ exists [], emptyQueryResponse. rewrite app_nil_r. split; [done|].
      constructor. by apply truthy_false. }
  apply truthy_true in Hq.
  unfold searchSupabase, embedQuery, mbind, M_bind, perform, throw, mret, M_ret.
  fold embeddingModel (chatModel env).
  destruct (embeddings_create env embeddingModel (lastUserFromHistory body))
    as [e|[|qEmb rest]] eqn:Hemb.
  - eexists [_], _. split; [done|]. by apply RunEmbeddingThrows.
  - eexists [_], _. split; [done|]. by apply RunEmbeddingEmpty.
  - fold (retrievalArgs env body qEmb).
    destruct (supabase_rpc env (RPC_NAME env) (retrievalArgs env body qEmb))
      as [e|res] eqn:Hrpc.
    + eexists [_; _], _. rewrite <- app_assoc. split; [done|].
      by eapply RunRetrievalThrows.
    + destruct (RpcResult.error res) as [message|] eqn:Herr.
      * eexists [_; _], _. rewrite <- app_assoc. split; [done|].
        by eapply RunRetrievalError.
      * fold (promptFor body (normalizeRows (RpcResult.data res ?? []))).
        destruct (chat_completions_create env (chatModel env)
                    (promptFor body (normalizeRows (RpcResult.data res ?? [])))
                    temperature) as [e|chat] eqn:Hchat.
        -- eexists [_; _; _], _. rewrite <- !app_assoc. split; [done|].
           by eapply RunCompletionThrows.
        -- eexists [_; _; _], _. rewrite <- !app_assoc. split; [done|].
           by eapply RunOk.
Qed.

End Runs.

(** ** Empty query *)

(** C2. When the resolved query is empty after all fallbacks, the
    handler answers with the client error (status 400) and calls no
    service: the log of calls is unchanged and the response carries an
    error, not an answer. When the resolved query is not empty, the
    response is never this error. *)
Theorem POST_empty_query (env : Env) (body : ChatBody.t) (log : list Call) :
  (lastUserFromHistory body = js "" →
   POST env body log
   = (log, inr (Response.mk 400%N
                  (ErrorJson (js "question (or message) is required")))))
  ∧ (lastUserFromHistory body ≠ js "" →
     ∃ calls resp,
       POST env body log = (log ++ calls, inr resp)
       ∧ Response.status resp ≠ 400%N
       ∧ resp ≠ emptyQueryResponse).
Proof.
  destruct (POST_run env body log) as (calls & resp & HPOST & Hrun).
  split.
  - intros Hq. rewrite HPOST.
    destruct Hrun; try contradiction. by rewrite app_nil_r.
  - intros Hq. exists calls, resp. split; [done|].
    destruct Hrun; try contradiction;
      (split; [cbn [Response.status serverError okResponse]; lia
              |unfold emptyQueryResponse, serverError, okResponse; congruence]).
Qed.

(** ** Result count *)

Section Clamp.
Local Open Scope Z_scope.

Lemma ofZ_1_eq : ofZ 1 = S754_finite false 4503599627370496 (-52).
Proof. reflexivity. Qed.

Lemma ofZ_60_eq : ofZ 60 = S754_finite false 8444249301319680 (-47).
Proof. reflexivity. Qed.

Lemma mantissa_compare_spec (a b : positive) :
  CompareSpec (a = b) (Z.pos a < Z.pos b) (Z.pos b < Z.pos a)
              (PosDef.Pos.compare_cont Eq a b).
Proof. exact (Pos.compare_spec a b). Qed.

Lemma exponent_compare_spec (a b : Z) :
  CompareSpec (a = b) (a < b) (b < a) (IntDef.Z.compare a b).
Proof. exact (Z.compare_spec a b). Qed.

Local Ltac cases_compare :=
  repeat match goal with
  | |- context [IntDef.Z.compare ?a ?b] =>
      destruct (exponent_compare_spec a b)
  | |- context [PosDef.Pos.compare_cont Eq ?a ?b] =>
      destruct (mantissa_compare_spec a b)
  end.

Local Ltac mantissas_to_Z :=
  repeat match goal with
  | H : @eq positive _ _ |- _ => apply (f_equal Z.pos) in H
  end.

Local Ltac clamp_cases x :=
  unfold Math_max, Math_min, Number_lt, Number_gt, Number_le, SFltb, SFleb;
  rewrite ofZ_1_eq, ofZ_60_eq;
  destruct x as [[|]|[|]| |[|] ? ?];
  cbn -[PosDef.Pos.compare_cont IntDef.Z.compare];
  unfold Number_lt, Number_gt, SFltb;
  cbn -[PosDef.Pos.compare_cont IntDef.Z.compare];
  try discriminate; try reflexivity;
  cases_compare; cbn -[PosDef.Pos.compare_cont IntDef.Z.compare];
  intros; try discriminate; try reflexivity; try (subst; reflexivity);
  try (split; reflexivity);
  mantissas_to_Z; lia.

Lemma clamp_below x : Number_lt x (ofZ 1) = true → clamp x = ofZ 1.
Proof. unfold clamp. clamp_cases x. Qed.

Lemma clamp_above x : Number_gt x (ofZ 60) = true → clamp x = ofZ 60.
Proof. unfold clamp. clamp_cases x. Qed.

Lemma clamp_between x :
  Number_le (ofZ 1) x = true → Number_le x (ofZ 60) = true → clamp x = x.
Proof. unfold clamp. clamp_cases x. Qed.

Lemma clamp_trichotomy x :
  isNaN x = false →
  Number_lt x (ofZ 1) = true ∨ Number_gt x (ofZ 60) = true
  ∨ (Number_le (ofZ 1) x = true ∧ Number_le x (ofZ 60) = true).
Proof.
  unfold Number_lt, Number_gt, Number_le, SFltb, SFleb.
  rewrite ofZ_1_eq, ofZ_60_eq.
  destruct x as [[|]|[|]| |[|] m e];
    cbn -[PosDef.Pos.compare_cont IntDef.Z.compare];
    try discriminate; intros _; auto;
    cases_compare; auto; exfalso; mantissas_to_Z; lia.
Qed.

(** Whatever number is asked for, the result lies in [1, 60]. *)
Lemma clamp_range x :
  isNaN x = false →
  Number_le (ofZ 1) (clamp x) = true ∧ Number_le (clamp x) (ofZ 60) = true.
Proof.
  intros Hx. destruct (clamp_trichotomy x Hx) as [H|[H|[H1 H2]]].
  - by rewrite (clamp_below x H).
  - by rewrite (clamp_above x H).
  - by rewrite (clamp_between x H1 H2).
Qed.
End Clamp.

(** C8. The effective result count is the requested [top_k] clamped to
    [1, 60], and 20 when [top_k] is absent: a value below 1 gives 1, a
    value above 60 gives 60, a value in between is used unchanged. It is
    the count passed to the similarity search and the one reported as
    [meta.top_k]. *)
Theorem effectiveTopK_clamped (env : Env) (body : ChatBody.t) :
  (ChatBody.top_k body = None → effectiveTopK body = ofZ 20)
  ∧ (∀ x, ChatBody.top_k body = Some x →
       (Number_lt x (ofZ 1) = true → effectiveTopK body = ofZ 1)
       ∧ (Number_gt x (ofZ 60) = true → effectiveTopK body = ofZ 60)
       ∧ (Number_le (ofZ 1) x = true → Number_le x (ofZ 60) = true →
          effectiveTopK body = x)
       ∧ (isNaN x = false →
          Number_le (ofZ 1) (effectiveTopK body) = true
          ∧ Number_le (effectiveTopK body) (ofZ 60) = true))
  ∧ (∀ log, ∃ calls resp,
       POST env body log = (log ++ calls, inr resp)
       ∧ (∀ fn args, SupabaseRpc fn args ∈ calls →
            RpcArgs.match_count args = effectiveTopK body)
       ∧ (∀ answer refs meta,
            Response.json resp = AnswerJson answer refs meta →
            Meta.top_k meta = effectiveTopK body)).
Proof.
  split; [|split].
  - intros Hk. unfold effectiveTopK. rewrite Hk. reflexivity.
  - intros x Hk. unfold effectiveTopK. rewrite Hk. cbn [coalesce].
    fold (clamp x).
    split; [apply clamp_below|]. split; [apply clamp_above|].
    split; [apply clamp_between|apply clamp_range].
  - intros log. destruct (POST_run env body log) as (calls & resp & HPOST & Hrun).
    exists calls, resp. split; [exact HPOST|]. split.
    + intros fn args Hin.
      destruct Hrun;
        repeat (apply elem_of_cons in Hin as [Hin|Hin]);
        try (by apply elem_of_nil in Hin);
        unfold embeddingCall, retrievalCall, completionCall in Hin;
        try discriminate Hin;
        injection Hin as _ ->; reflexivity.
    + intros answer refs meta Hjson.
      destruct Hrun; try discriminate Hjson.
      unfold okResponse in Hjson. cbn [Response.json] in Hjson. by simplify_eq.
Qed.

(** ** Row normalisation *)

(** C3, as stated, fails: the empty [content] is taken, the [text]
    column is never consulted, and the row is then discarded. *)
Lemma normalizeRow_empty_content_counterexample :
  Retrieved.text (normalizeRow rowEmptyContent) = js ""
  ∧ trim (firstNonEmpty (textColumns rowEmptyContent) ?? js "") = js "T"
  ∧ normalizeRows [rowEmptyContent] = []
  ∧ ¬ firstNonEmptyWins rowEmptyContent.
Proof.
  split; [by vm_compute|]. split; [by vm_compute|]. split; [by vm_compute|].
  intros [Htext _]. vm_compute in Htext. discriminate Htext.
Qed.

(** C3, amended. The passage text is the first of content, text, chunk,
    body, page_text, document that is present (not null), trimmed, even
    when that value is the empty string; the source is the first present
    of source, url, source_url, page_url, doc_url, path, trimmed; the
    score is similarity, else score, else 0. So content wins over text
    whenever content is present, and a row with only page_text uses
    that value. *)
Theorem normalizeRow_first_present (row : Row.t) :
  Retrieved.text (normalizeRow row)
    = trim (firstPresent (textColumns row) ?? js "")
  ∧ Retrieved.source (normalizeRow row)
    = trim (firstPresent (sourceColumns row) ?? js "")
  ∧ Retrieved.similarity (normalizeRow row)
    = firstPresent (scoreColumns row) ?? ofZ 0
  ∧ (∀ c, Row.content row = Some c →
          Retrieved.text (normalizeRow row) = trim c)
  ∧ (∀ p, Row.content row = None → Row.text row = None →
          Row.chunk row = None → Row.body row = None →
          Row.page_text row = Some p →
          Retrieved.text (normalizeRow row) = trim p).
Proof.
  destruct row as [c t ch b pt d s u su pu du pa sim sc].
  unfold normalizeRow, textColumns, sourceColumns, scoreColumns.
  cbn [Row.content Row.text Row.chunk Row.body Row.page_text Row.document
       Row.source Row.url Row.source_url Row.page_url Row.doc_url Row.path
       Row.similarity Row.score Retrieved.text Retrieved.source
       Retrieved.similarity].
  split; [by destruct c, t, ch, b, pt, d|].
  split; [by destruct s, u, su, pu, du, pa|].
  split; [by destruct sim, sc|].
  split.
  - by intros c' ->.
  - by intros p -> -> -> -> ->.
Qed.

(** ** Evidence records *)

Lemma trim_nil_iff (s : jsstring) :
  trim s = [] ↔ Forall (λ c, isWhiteSpace c = true) s.
Proof.
  split; [|apply trim_blank].
  unfold trim, trimEnd. intros Hnil.
  destruct (trimStart_suffix s) as (p & Hs & Hp).
  destruct (trimStart_suffix (reverse (trimStart s))) as (p' & Hr & Hp').
  assert (Hrev : trimStart (reverse (trimStart s)) = []).
  { apply (f_equal reverse) in Hnil. by rewrite reverse_involutive in Hnil. }
  rewrite Hrev, app_nil_r in Hr.
  rewrite Hs. apply Forall_app. split; [done|].
  apply Forall_reverse. by rewrite Hr.
Qed.

Lemma normalizeRows_elem r rows :
  r ∈ normalizeRows rows
  ↔ (∃ row, row ∈ rows ∧ r = normalizeRow row) ∧ Retrieved.text r ≠ js "".
Proof.
  unfold normalizeRows. rewrite list_elem_of_filter, list_elem_of_fmap.
  unfold hasText. split.
  - intros [Hlen (row & -> & Hin)]. split; [by exists row|].
    intros Hnil. rewrite Hnil in Hlen. vm_compute in Hlen. lia.
  - intros [(row & Hin & ->) Hne]. split; [|by exists row].
    destruct (Retrieved.text (normalizeRow row)); [done|]. simpl. lia.
Qed.


(** C7. Every record the retriever returns has text that is not empty:
    a row whose extracted text is empty or only whitespace is discarded,
    and nothing else is; a record with an empty source is kept, in place,
    and is handed to the prompt assembler. *)
Theorem normalizeRows_text_nonempty (rows : list Row.t) :
  Forall (λ r, Retrieved.text r ≠ js "") (normalizeRows rows)
  ∧ (∀ r, r ∈ normalizeRows rows
          ↔ (∃ row, row ∈ rows ∧ r = normalizeRow row)
            ∧ Retrieved.text r ≠ js "")
  ∧ (∀ row, row ∈ rows →
       Forall (λ c, isWhiteSpace c = true)
              (firstPresent (textColumns row) ?? js "") →
       normalizeRow row ∉ normalizeRows rows)
  ∧ (∀ row, row ∈ rows →
       Retrieved.text (normalizeRow row) ≠ js "" →
       Retrieved.source (normalizeRow row) = js "" →
       normalizeRow row ∈ normalizeRows rows
       ∧ Context.mk (Retrieved.text (normalizeRow row)) (js "")
           ∈ contextsOf (normalizeRows rows))
  ∧ normalizeRows rows `sublist_of` (normalizeRow <$> rows).
Proof.
  split; [|split; [|split; [|split]]].
  - apply Forall_forall. intros r Hr. by apply normalizeRows_elem in Hr as [_ ?].
  - intros r. apply normalizeRows_elem.
  - intros row _ Hblank [_ Hne]%normalizeRows_elem. apply Hne.
    rewrite (proj1 (normalizeRow_first_present row)).
    by apply trim_nil_iff.
  - intros row Hin Hne Hsrc.
    assert (Hkept : normalizeRow row ∈ normalizeRows rows).
    { apply normalizeRows_elem. split; [by exists row|done]. }
    split; [done|]. unfold contextsOf. apply list_elem_of_fmap.
    exists (normalizeRow row). by rewrite Hsrc.
  - apply sublist_filter.
Qed.

(** ** Prompt assembly *)












(** ** History normalizer *)

Lemma slice_from_drop {A} (start : Z) (l : list A) :
  ∃ k, slice_from start l = drop k l.
Proof. unfold slice_from. by eexists. Qed.

(** For a count of at least one, [slice(-n)] keeps the last [n]
    elements. *)
Lemma slice_from_last {A} (n : Z) (l : list A) :
  (1 ≤ n)%Z → slice_from (- n) l = drop (length l - Z.to_nat n) l.
Proof.
  intros Hn. unfold slice_from. rewrite decide_True by lia.
  f_equal. lia.
Qed.


Lemma cleaned_elem body m :
  m ∈ cleaned body
  ↔ nonBlank m
    ∧ ∃ t, Some t ∈ (ChatBody.messages body ?? [])
           ∧ (ClientMsg.role t = js "user" ∨ ClientMsg.role t = js "assistant")
           ∧ m = PromptMsg.mk (ClientMsg.role t)
                   (take maxContent (ClientMsg.content t ?? js "")).
Proof.
  unfold cleaned. cbv zeta.
  rewrite list_elem_of_filter, list_elem_of_fmap. split.
  - intros [Hnb (x & -> & [Hturn Hin]%list_elem_of_filter)].
    split; [done|]. destruct x as [t|]; [|done]. by exists t.
  - intros [Hnb (t & Hin & Hrole & ->)]. split; [done|].
    exists (Some t). split; [done|]. by apply list_elem_of_filter.
Qed.

Lemma normalizeHistory_elem body N m :
  m ∈ normalizeHistory body N → m ∈ cleaned body.
Proof.
  unfold normalizeHistory.
  destruct (slice_from_drop (- N) (cleaned body)) as [k ->].
  intros Hm. eapply elem_of_sublist; [exact Hm|apply sublist_drop].
Qed.

Lemma cleaned_sublist body :
  cleaned body `sublist_of` (cutTurn <$> (ChatBody.messages body ?? [])).
Proof.
  unfold cleaned. cbv zeta.
  etrans; [apply sublist_filter|].
  apply fmap_sublist, sublist_filter.
Qed.

(** For a maximum of at least one turn the normalizer does what C5
    says: at most [N] turns, in their original order, only user and
    assistant turns with content that is not blank, and exactly the last
    [N] survivors when there are more than [N]. *)
Lemma normalizeHistory_keeps_last (body : ChatBody.t) (N : Z) :
  (1 ≤ N)%Z →
  (Z.of_nat (length (normalizeHistory body N)) ≤ N)%Z
  ∧ normalizeHistory body N
      `sublist_of` (cutTurn <$> (ChatBody.messages body ?? []))
  ∧ Forall (λ m, (PromptMsg.role m = js "user"
                  ∨ PromptMsg.role m = js "assistant")
                 ∧ trim (PromptMsg.content m) ≠ js "")
           (normalizeHistory body N)
  ∧ (∃ dropped, cleaned body = dropped ++ normalizeHistory body N
                ∧ ((N < Z.of_nat (length (cleaned body)))%Z →
                   Z.of_nat (length (normalizeHistory body N)) = N)
                ∧ ((Z.of_nat (length (cleaned body)) ≤ N)%Z →
                   dropped = [])).
Proof.
  intros HN.
  assert (Heq : normalizeHistory body N
                = drop (length (cleaned body) - Z.to_nat N) (cleaned body))
    by (by apply slice_from_last).
  split; [rewrite Heq, length_drop; lia|]. split.
  { rewrite Heq. etrans; [apply sublist_drop|apply cleaned_sublist]. }
  split.
  { apply Forall_forall.
    intros m [Hnb (t & _ & Hrole & ->)]%normalizeHistory_elem%cleaned_elem.
    split; [done|]. unfold nonBlank in Hnb. intros Hnil.
    rewrite Hnil in Hnb. vm_compute in Hnb. lia. }
  exists (take (length (cleaned body) - Z.to_nat N) (cleaned body)).
  rewrite Heq. split; [by rewrite take_drop|]. split.
  - intros Hlt. rewrite length_drop. lia.
  - intros Hle. replace (length (cleaned body) - Z.to_nat N) with 0 by lia.
    done.
Qed.




(** ** Answer and references *)



(** * Instances of the theorems *)

#[local] Transparent js.

Lemma lastUserFromHistory_spec_witness :
  (trimmedContent lastTurn ≠ js ""
   ∧ lastUserFromHistory bodyFollowUp = trimmedContent lastTurn)
  ∧ (trimmedContent blankTurn = js ""
     ∧ lastUserFromHistory bodyBlankTurn = legacyField bodyBlankTurn).
Proof.
  split.
  - assert (Hne : trimmedContent lastTurn ≠ js "") by (vm_compute; discriminate).
    split; [exact Hne|].
    refine (proj1 (lastUserFromHistory_spec bodyFollowUp) _ lastTurn
              eq_refl _ Hne).
    exists [Some (ClientMsg.mk (js "user") (Some (js "What is X?")));
            Some (ClientMsg.mk (js "assistant") (Some (js "X is a company.")));
            None],
           [Some (ClientMsg.mk (js "assistant") None)].
    split; [reflexivity|]. split; [reflexivity|].
    constructor; [|constructor]. vm_compute. intros H. discriminate H.
  - assert (He : trimmedContent blankTurn = js "") by (vm_compute; reflexivity).
    split; [exact He|].
    apply (proj2 (lastUserFromHistory_spec bodyBlankTurn)).
    right. right. right. exists [Some blankTurn], blankTurn.
    split; [reflexivity|]. split; [|exact He].
    exists [], []. split; [reflexivity|]. split; [reflexivity|constructor].
Defined.

Lemma POST_empty_query_witness :
  lastUserFromHistory emptyBody = js ""
  ∧ POST stubEnv emptyBody []
    = ([], inr (Response.mk 400%N
                  (ErrorJson (js "question (or message) is required")))).
Proof.
  assert (Hq : lastUserFromHistory emptyBody = js "") by (vm_compute; reflexivity).
  split; [exact Hq|].
  exact (proj1 (POST_empty_query stubEnv emptyBody []) Hq).
Defined.

Lemma normalizeRow_first_present_witness :
  Row.content rowBoth = Some (js " A ")
  ∧ Retrieved.text (normalizeRow rowBoth) = trim (js " A ").
Proof.
  split; [reflexivity|].
  destruct (normalizeRow_first_present rowBoth) as (_ & _ & _ & Hcontent & _).
  apply Hcontent. reflexivity.
Defined.


Lemma normalizeRows_text_nonempty_witness :
  rowPageText ∈ [rowDoc1; rowPageText]
  ∧ Retrieved.source (normalizeRow rowPageText) = js ""
  ∧ normalizeRow rowPageText ∈ normalizeRows [rowDoc1; rowPageText].
Proof.
  assert (Hin : rowPageText ∈ [rowDoc1; rowPageText])
    by (apply list_elem_of_further, list_elem_of_here).
  split; [exact Hin|]. split; [reflexivity|].
  destruct (normalizeRows_text_nonempty [rowDoc1; rowPageText])
    as (_ & _ & _ & Hkept & _).
  apply (Hkept rowPageText Hin); [|reflexivity].
  vm_compute. intros H. discriminate H.
Defined.

Lemma effectiveTopK_clamped_witness :
  (ChatBody.top_k bodyFollowUp = Some (ofZ 100)
   ∧ Number_gt (ofZ 100) (ofZ 60) = true
   ∧ effectiveTopK bodyFollowUp = ofZ 60)
  ∧ (ChatBody.top_k emptyBody = None ∧ effectiveTopK emptyBody = ofZ 20).
Proof.
  split.
  - split; [reflexivity|]. split; [reflexivity|].
    destruct (proj1 (proj2 (effectiveTopK_clamped stubEnv bodyFollowUp))
                (ofZ 100) eq_refl) as (_ & Habove & _).
    apply Habove. reflexivity.
  - split; [reflexivity|].
    apply (proj1 (effectiveTopK_clamped stubEnv emptyBody)). reflexivity.
Defined.



Lemma normalizeHistory_keeps_last_witness :
  (1 ≤ 2)%Z
  ∧ (Z.of_nat (length (normalizeHistory bodyFollowUp 2)) ≤ 2)%Z.
Proof.
  assert (H2 : (1 ≤ 2)%Z) by lia.
  split; [exact H2|].
  exact (proj1 (normalizeHistory_keeps_last bodyFollowUp 2 H2)).
Defined.
